(** * Variable-load traffic simulator (sample-apps/3-variable-load/app/main.py)

    A shallow embedding of the load-pattern controller: the pattern
    function [calculate_target_workers], the worker-pool reconciliation
    performed by one tick of [manage_workers], and the two administrative
    handlers [update_config] and [set_pattern].

    Numeric conventions.  Python [int]s are [Z].  Python floats are modelled
    by exact numbers: the cycle position [(cycle_time % CYCLE_DURATION) /
    CYCLE_DURATION] is a rational [Q], the sine-based load factor is a real
    [R].  [int(x)] on a float truncates toward zero ([py_int_Q], [Rtrunc]). *)

From Stdlib Require Import ZArith QArith Qround Qreals Reals Lra Lia.
From Stdlib Require Import Ascii String List Bool.
Import ListNotations.

Local Open Scope Z_scope.
Local Set Warnings "-register-all".

(** ** JSON values, as produced by [request.get_json()] *)

Inductive json : Type :=
| JNull
| JBool (b : bool)
| JInt (z : Z)
| JFloat (q : Q)
| JStr (s : string)
| JList (l : list json)
| JObj (kv : list (string * json)).

(** Python truthiness, used by [request.get_json() or {}]. *)
Definition py_truthy (v : json) : bool :=
  match v with
  | JNull => false
  | JBool b => b
  | JInt z => negb (z =? 0)
  | JFloat q => negb (Qeq_bool q 0)
  | JStr s => negb (String.eqb s EmptyString)
  | JList l => negb (match l with [] => true | _ => false end)
  | JObj kv => negb (match kv with [] => true | _ => false end)
  end.

(** [key in data] for a string [key]; [None] is the [TypeError] raised
    when [data] is not a container. *)
Definition py_contains (data : json) (key : string) : option bool :=
  match data with
  | JObj kv => Some (existsb (fun p => String.eqb (fst p) key) kv)
  | JList l =>
      Some (existsb (fun v => match v with JStr s => String.eqb s key | _ => false end) l)
  | JStr s => Some (match String.index 0 key s with Some _ => true | None => false end)
  | _ => None
  end.

(** [data[key]] for a string [key]; a parsed JSON object has distinct keys.
    Indexing a list or a string with a string raises [TypeError]. *)
Definition py_getitem (data : json) (key : string) : option json :=
  match data with
  | JObj kv =>
      match find (fun p => String.eqb (fst p) key) kv with
      | Some p => Some (snd p)
      | None => None
      end
  | _ => None
  end.

(** ** [int(x)] on the JSON values *)

(** Truncation toward zero of a rational, [int(float)]. *)
Definition py_int_Q (q : Q) : Z := Z.quot (Qnum q) (Zpos (Qden q)).

Definition ascii_digit (c : Ascii.ascii) : option Z :=
  let n := Z.of_nat (Ascii.nat_of_ascii c) in
  if (48 <=? n) && (n <=? 57) then Some (n - 48) else None.

Definition is_space (c : Ascii.ascii) : bool :=
  match Ascii.nat_of_ascii c with
  | 32%nat | 9%nat | 10%nat | 11%nat | 12%nat | 13%nat => true
  | _ => false
  end.

Fixpoint strip_left (s : list Ascii.ascii) : list Ascii.ascii :=
  match s with
  | c :: s' => if is_space c then strip_left s' else s
  | [] => []
  end.

Definition py_strip (s : list Ascii.ascii) : list Ascii.ascii :=
  rev (strip_left (rev (strip_left s))).

(** Decimal digits with single underscores between digits, as accepted by
    [int(str)]; [acc] is the value read so far, [prev_digit] whether the
    previous character was a digit. *)
Fixpoint read_digits (s : list Ascii.ascii) (acc : Z) (prev_digit : bool) : option Z :=
  match s with
  | [] => if prev_digit then Some acc else None
  | c :: s' =>
      match ascii_digit c with
      | Some d => read_digits s' (10 * acc + d) true
      | None =>
          if Ascii.eqb c "_"%char && prev_digit then
            match s' with
            | c2 :: _ => match ascii_digit c2 with
                         | Some _ => read_digits s' acc false
                         | None => None
                         end
            | [] => None
            end
          else None
      end
  end.

Definition py_int_str (s : string) : option Z :=
  match py_strip (list_ascii_of_string s) with
  | c :: rest =>
      if Ascii.eqb c "-"%char then option_map Z.opp (read_digits rest 0 false)
      else if Ascii.eqb c "+"%char then read_digits rest 0 false
      else read_digits (c :: rest) 0 false
  | [] => None
  end.

(** [int(v)]; [None] is the [ValueError]/[TypeError] it raises. *)
Definition py_int (v : json) : option Z :=
  match v with
  | JInt z => Some z
  | JBool b => Some (if b then 1 else 0)
  | JFloat q => Some (py_int_Q q)
  | JStr s => py_int_str s
  | _ => None
  end.

(** ** Runtime configuration (module globals) *)

(** [PATTERN_MODE], [BASE_LOAD], [MAX_LOAD], [CYCLE_DURATION] and
    [manual_workers].  [PATTERN_MODE] holds whatever JSON value [/config]
    stored, not necessarily a string. *)
Record config : Type := mk_config {
  PATTERN_MODE : json;
  BASE_LOAD : Z;
  MAX_LOAD : Z;
  CYCLE_DURATION : Z;
  manual_workers : Z
}.

(** The values the module takes when no environment variable is set;
    [manual_workers = BASE_LOAD] at import time. *)
Definition default_config : config :=
  mk_config (JStr "wave") 10 50 120 10.

(** ** The pattern function [calculate_target_workers] *)

(** Python [==] between the mode and a string literal. *)
Definition mode_is (mode : json) (s : string) : bool :=
  match mode with
  | JStr m => String.eqb m s
  | _ => false
  end.

(** [(cycle_time % CYCLE_DURATION) / CYCLE_DURATION]; [None] is the
    [ZeroDivisionError] raised when [CYCLE_DURATION = 0].  Python's [%]
    takes the sign of the divisor, as [Z.modulo] does. *)
Definition position (cycle_time cycle : Z) : option Q :=
  if cycle =? 0 then None
  else Some (inject_Z (cycle_time mod cycle) / inject_Z cycle)%Q.

(** [int(x)] on a float: truncation toward zero. *)
Definition Rtrunc (x : R) : Z :=
  if Rle_dec 0 x then Int_part x else - Int_part (- x).

(** [(math.sin(position * 2 * math.pi) + 1) / 2] *)
Definition wave_factor (p : R) : R := ((sin (p * 2 * PI) + 1) / 2)%R.

(** [int(BASE_LOAD + (MAX_LOAD - BASE_LOAD) * load_factor)] *)
Definition scale_target (base max : Z) (load_factor : R) : Z :=
  Rtrunc (IZR base + IZR (max - base) * load_factor)%R.

(** Python [<] on the position. *)
Definition Qltb (a b : Q) : bool := negb (Qle_bool b a).

(** [position < 0.1 or (0.5 <= position < 0.6)] *)
Definition spike_high (p : Q) : bool :=
  Qltb p (1 # 10) || (Qle_bool (1 # 2) p && Qltb p (6 # 10)).

(** [calculate_target_workers(mode, cycle_time)] with the global
    [current_load_level] threaded through: given its value [lvl] on entry it
    returns [Some (target, lvl')], or [None] when the call raises.  [rnd] is
    the value [random.random()] returns, in [[0,1)]. *)
Definition calculate_target_workers (cfg : config) (rnd : R)
    (mode : json) (cycle_time : Z) (lvl : Z) : option (Z * Z) :=
  if mode_is mode "manual" then Some (manual_workers cfg, lvl)
  else
    match position cycle_time (CYCLE_DURATION cfg) with
    | None => None
    | Some pos =>
        if mode_is mode "wave" then
          let load_factor := wave_factor (Q2R pos) in
          Some (scale_target (BASE_LOAD cfg) (MAX_LOAD cfg) load_factor,
                Rtrunc (load_factor * 100)%R)
        else if mode_is mode "spike" then
          if spike_high pos then Some (MAX_LOAD cfg, 100)
          else Some (BASE_LOAD cfg
                     + py_int_Q (inject_Z (MAX_LOAD cfg - BASE_LOAD cfg) * (2 # 10))%Q,
                     20)
        else if mode_is mode "random" then
          Some (scale_target (BASE_LOAD cfg) (MAX_LOAD cfg) rnd, Rtrunc (rnd * 100)%R)
        else Some (BASE_LOAD cfg, lvl)
    end.

(** ** The worker pool and one tick of [manage_workers] *)

(** A [threading.Thread] in [workers]: the id passed to [worker_task] and
    whether [is_alive()] holds.  A started worker runs [worker_task], which
    loops until [stop_event] is set, so it is alive for the rest of the run. *)
Record worker : Type := mk_worker { wid : Z; alive : bool }.

Inductive log_event : Type :=
| ScaledUp (target current : Z)
| ScalingDown (to_stop current target : Z)
| ManagerError.

Definition count_alive (pool : list worker) : Z :=
  Z.of_nat (length (filter alive pool)).

(** [for i in range(n): ... args=(len(workers) + i,) ...; workers.append(worker)]:
    [len(workers)] is read afresh at every iteration, after the previous
    appends. *)
Fixpoint spawn_loop (is : list Z) (pool : list worker) : list worker :=
  match is with
  | [] => pool
  | i :: is' =>
      spawn_loop is' (pool ++ [mk_worker (Z.of_nat (length pool) + i) true])
  end.

Definition py_range (n : Z) : list Z := map Z.of_nat (seq 0 (Z.to_nat n)).

(** The "Adjust worker count" block of [manage_workers]. *)
Definition reconcile (target : Z) (pool : list worker) : list worker * list log_event :=
  let current := count_alive pool in
  if current <? target then
    (spawn_loop (py_range (target - current)) pool, [ScaledUp target current])
  else if target <? current then
    (pool, [ScalingDown (current - target) current target])
  else (pool, []).

(** The state the controller loop reads and writes: configuration, the
    [workers] list, [current_load_level] and the four gauges it sets. *)
Record state : Type := mk_state {
  st_cfg : config;
  st_workers : list worker;
  st_load_level : Z;
  g_active_workers : Z;
  g_load_level : Z;
  g_memory_usage_bytes : Z;
  g_cpu_usage_estimate : Q
}.

(** One iteration of the [while not stop_event.is_set()] loop of
    [manage_workers].  [enabled] is [ENABLED] (fixed at import), [elapsed]
    is [int(time.time() - start_time)], [rnd] the draw of
    [random.random()], [rss] and [cpu_percent] the [psutil] samples.  An
    exception raised by [calculate_target_workers] is caught and logged,
    and the rest of the iteration is skipped. *)
Definition tick (enabled : bool) (st : state) (elapsed : Z) (rnd : R)
    (rss : Z) (cpu_percent : Q) : state * list log_event :=
  let sample_system s :=
    mk_state (st_cfg s) (st_workers s) (st_load_level s)
             (g_active_workers s) (g_load_level s) rss (cpu_percent / 100)%Q in
  if enabled then
    let cfg := st_cfg st in
    match calculate_target_workers cfg rnd (PATTERN_MODE cfg) elapsed (st_load_level st) with
    | None => (st, [ManagerError])
    | Some (target, lvl) =>
        let (pool, logs) := reconcile target (st_workers st) in
        (sample_system (mk_state cfg pool lvl (count_alive pool) lvl
                                 (g_memory_usage_bytes st) (g_cpu_usage_estimate st)),
         logs)
    end
  else (sample_system st, []).

(** ** The administrative handlers *)

Local Open Scope string_scope.

(** A handler runs against the module globals and may raise midway; the
    assignments made before the exception stay.  [None] is an exception,
    which Flask turns into a 500 response. *)
Definition M (A : Type) : Type := config -> config * option A.

Definition ret {A} (a : A) : M A := fun c => (c, Some a).

Definition bind {A B} (m : M A) (k : A -> M B) : M B :=
  fun c => match m c with
           | (c', Some a) => k a c'
           | (c', None) => (c', None)
           end.

(** Raise when the Python operation raises. *)
Definition lift {A} (o : option A) : M A := fun c => (c, o).

Definition modify (f : config -> config) : M unit := fun c => (f c, Some tt).

Definition get_cfg : M config := fun c => (c, Some c).

Local Notation "x <- m ;; k" := (bind m (fun x => k))
  (at level 61, m at next level, right associativity).

Definition set_PATTERN_MODE (v : json) (c : config) : config :=
  mk_config v (BASE_LOAD c) (MAX_LOAD c) (CYCLE_DURATION c) (manual_workers c).
Definition set_BASE_LOAD (n : Z) (c : config) : config :=
  mk_config (PATTERN_MODE c) n (MAX_LOAD c) (CYCLE_DURATION c) (manual_workers c).
Definition set_MAX_LOAD (n : Z) (c : config) : config :=
  mk_config (PATTERN_MODE c) (BASE_LOAD c) n (CYCLE_DURATION c) (manual_workers c).
Definition set_CYCLE_DURATION (n : Z) (c : config) : config :=
  mk_config (PATTERN_MODE c) (BASE_LOAD c) (MAX_LOAD c) n (manual_workers c).
Definition set_manual_workers (n : Z) (c : config) : config :=
  mk_config (PATTERN_MODE c) (BASE_LOAD c) (MAX_LOAD c) (CYCLE_DURATION c) n.

Record response : Type := mk_response { status : Z; body : json }.

Definition config_json (c : config) : json :=
  JObj [("pattern_mode", PATTERN_MODE c); ("base_load", JInt (BASE_LOAD c));
        ("max_load", JInt (MAX_LOAD c)); ("cycle_duration", JInt (CYCLE_DURATION c));
        ("manual_workers", JInt (manual_workers c))].

(** [POST /config] with the parsed request body [req]. *)
Definition update_config (req : json) : M response :=
  let data := if py_truthy req then req else JObj [] in
  b1 <- lift (py_contains data "pattern_mode") ;;
  _ <- (if b1 then v <- lift (py_getitem data "pattern_mode") ;;
                   modify (set_PATTERN_MODE v)
        else ret tt) ;;
  b2 <- lift (py_contains data "base_load") ;;
  _ <- (if b2 then v <- lift (py_getitem data "base_load") ;;
                   n <- lift (py_int v) ;; modify (set_BASE_LOAD n)
        else ret tt) ;;
  b3 <- lift (py_contains data "max_load") ;;
  _ <- (if b3 then v <- lift (py_getitem data "max_load") ;;
                   n <- lift (py_int v) ;; modify (set_MAX_LOAD n)
        else ret tt) ;;
  b4 <- lift (py_contains data "cycle_duration") ;;
  _ <- (if b4 then v <- lift (py_getitem data "cycle_duration") ;;
                   n <- lift (py_int v) ;; modify (set_CYCLE_DURATION n)
        else ret tt) ;;
  b5 <- lift (py_contains data "workers") ;;
  _ <- (if b5 then v <- lift (py_getitem data "workers") ;;
                   n <- lift (py_int v) ;; modify (set_manual_workers n)
        else ret tt) ;;
  c <- get_cfg ;;
  ret (mk_response 200 (JObj [("status", JStr "success"); ("config", config_json c)])).

Definition valid_patterns : list string := ["wave"; "spike"; "random"; "manual"]%string.

(** [str(list_of_strings)], as the f-string renders it. *)
Definition py_str_list (l : list string) : string :=
  ("[" ++ String.concat ", " (map (fun s => "'" ++ s ++ "'") l) ++ "]")%string.

Definition invalid_pattern_message : string :=
  ("Invalid pattern. Must be one of: " ++ py_str_list valid_patterns)%string.

(** [POST /pattern/<pattern_name>]. *)
Definition set_pattern (pattern_name : string) : M response :=
  if negb (existsb (String.eqb pattern_name) valid_patterns) then
    ret (mk_response 400 (JObj [("error", JStr invalid_pattern_message)]))
  else
    _ <- modify (set_PATTERN_MODE (JStr pattern_name)) ;;
    ret (mk_response 200 (JObj [("status", JStr "success"); ("pattern", JStr pattern_name)])).


(** Ticks of the controller loop with the successive samples. *)
Fixpoint run (enabled : bool) (st : state) (samples : list (Z * R * Z * Q)) : state :=
  match samples with
  | [] => st
  | (elapsed, rnd, rss, cpu) :: rest => run enabled (fst (tick enabled st elapsed rnd rss cpu)) rest
  end.

(** ** Readings of the specification, to be compared with the code *)



(** The fields [POST /config] may update, in the order the handler tests
    them, with the key of the request body and the global each one sets. *)
Inductive field : Type := FPatternMode | FBaseLoad | FMaxLoad | FCycleDuration | FWorkers.

Definition config_fields : list field :=
  [FPatternMode; FBaseLoad; FMaxLoad; FCycleDuration; FWorkers].

Definition field_key (f : field) : string :=
  match f with
  | FPatternMode => "pattern_mode"
  | FBaseLoad => "base_load"
  | FMaxLoad => "max_load"
  | FCycleDuration => "cycle_duration"
  | FWorkers => "workers"
  end.

Definition field_index (f : field) : nat :=
  match f with
  | FPatternMode => 0 | FBaseLoad => 1 | FMaxLoad => 2 | FCycleDuration => 3 | FWorkers => 4
  end.

Definition field_value (f : field) (c : config) : json :=
  match f with
  | FPatternMode => PATTERN_MODE c
  | FBaseLoad => JInt (BASE_LOAD c)
  | FMaxLoad => JInt (MAX_LOAD c)
  | FCycleDuration => JInt (CYCLE_DURATION c)
  | FWorkers => JInt (manual_workers c)
  end.

(** The value a field takes from the body: [pattern_mode] as is, the
    numeric fields through [int()]. *)
Definition coerce (f : field) (v : json) : option json :=
  match f with
  | FPatternMode => Some v
  | _ => option_map JInt (py_int v)
  end.

(** The first field, in handler order, present in the body whose value
    [int()] rejects. *)
Definition first_failure (kv : list (string * json)) : option field :=
  find (fun f => match py_getitem (JObj kv) (field_key f) with
                 | Some v => match coerce f v with Some _ => false | None => true end
                 | None => false
                 end) config_fields.

(** Whether the handler reaches the assignment of field [f]. *)
Definition reached (kv : list (string * json)) (f : field) : bool :=
  match first_failure kv with
  | None => true
  | Some g => Nat.ltb (field_index f) (field_index g)
  end.

(** ** The status endpoint *)

(** [round(x, 2)] on a float: the exact value rounded to two decimals,
    ties to even. *)
Definition py_round2 (x : Q) : Q :=
  let y := (x * 100)%Q in
  let f := Qfloor y in
  let r := (y - inject_Z f)%Q in
  let k := if Qltb r (1 # 2) then f
           else if Qltb (1 # 2) r then f + 1
           else if Z.even f then f else f + 1 in
  (inject_Z k / 100)%Q.

(** [status()], [GET /status].  [rss] and [cpu_percent] are the [psutil] samples,
    [completed] the value of the [work_completed] counter and [timestamp]
    the [isoformat()] of the current time. *)
Definition status_endpoint (enabled : bool) (st : state) (rss : Z) (cpu_percent : Q)
    (completed : Z) (timestamp : string) : response :=
  let cfg := st_cfg st in
  let alive_workers := filter alive (st_workers st) in
  mk_response 200 (JObj [
    ("application", JStr "variable-load-simulator");
    ("version", JStr "1.0.0");
    ("enabled", JBool enabled);
    ("config", JObj [("pattern_mode", PATTERN_MODE cfg);
                     ("base_load", JInt (BASE_LOAD cfg));
                     ("max_load", JInt (MAX_LOAD cfg));
                     ("cycle_duration", JInt (CYCLE_DURATION cfg))]);
    ("metrics", JObj [("memory_usage_mb", JFloat (py_round2 (inject_Z rss / 1024 / 1024)%Q));
                      ("cpu_percent", JFloat (py_round2 cpu_percent));
                      ("active_workers", JInt (Z.of_nat (length alive_workers)));
                      ("total_workers_created", JInt (Z.of_nat (length (st_workers st))));
                      ("load_level_percent", JInt (st_load_level st));
                      ("work_completed", JInt completed)]);
    ("timestamp", JStr timestamp)]).

(** The integer a nested [metrics] entry of a response body holds. *)
Definition metric (r : response) (key : string) : option Z :=
  match py_getitem (body r) "metrics" with
  | Some m => match py_getitem m key with Some (JInt z) => Some z | _ => None end
  | None => None
  end.

(** The load level kept by the controller and exported as a gauge is a
    percentage. *)
Definition level_ok (st : state) : Prop :=
  0 <= st_load_level st <= 100 /\ 0 <= g_load_level st <= 100.

(** * Properties *)

Local Open Scope list_scope.

(** ** Evaluation checks *)

Example py_int_str_ex1 : py_int (JStr " -1_000 ") = Some (-1000).
Proof. reflexivity. Qed.

Example py_int_str_ex2 : py_int (JStr "abc") = None.
Proof. reflexivity. Qed.

Example py_int_float_ex : py_int (JFloat (-79 # 10)) = Some (-7).
Proof. reflexivity. Qed.

Example reconcile_ex :
  map wid (fst (reconcile 3 [mk_worker 0 true; mk_worker 1 false])) = [0; 1; 2; 4].
Proof. reflexivity. Qed.

Example invalid_pattern_message_ex :
  invalid_pattern_message =
  "Invalid pattern. Must be one of: ['wave', 'spike', 'random', 'manual']"%string.
Proof. reflexivity. Qed.

Example update_config_ex :
  fst (update_config (JObj [("workers", JStr "7"); ("max_load", JFloat (305 # 10))])
                     default_config)
  = mk_config (JStr "wave") 10 30 120 7.
Proof. reflexivity. Qed.

(** ** Helper lemmas on the worker pool *)

Lemma count_alive_app (l1 l2 : list worker) :
  count_alive (l1 ++ l2) = count_alive l1 + count_alive l2.
Proof. unfold count_alive. rewrite filter_app, length_app. lia. Qed.

Lemma count_alive_le_length (l : list worker) : count_alive l <= Z.of_nat (length l).
Proof.
  unfold count_alive. induction l as [|w l IH]; simpl; [lia|].
  destruct (alive w); simpl; lia.
Qed.

(** [spawn_loop] appends one live worker per iteration and leaves the
    existing entries untouched. *)
Lemma spawn_loop_app (is : list Z) (pool : list worker) :
  exists added, spawn_loop is pool = pool ++ added /\
                length added = length is /\
                Forall (fun w => alive w = true) added.
Proof.
  revert pool. induction is as [|i is IH]; intros pool; simpl.
  - exists []. rewrite app_nil_r. auto.
  - destruct (IH (pool ++ [mk_worker (Z.of_nat (length pool) + i) true]))
      as (added & Heq & Hlen & Hall).
    exists (mk_worker (Z.of_nat (length pool) + i) true :: added).
    rewrite Heq, <- app_assoc. simpl. repeat split; auto.
Qed.

Lemma count_alive_all_alive (l : list worker) :
  Forall (fun w => alive w = true) l -> count_alive l = Z.of_nat (length l).
Proof.
  unfold count_alive. induction 1 as [|w l Hw _ IH]; simpl; [reflexivity|].
  rewrite Hw. simpl. lia.
Qed.

Lemma py_range_length (n : Z) : length (py_range n) = Z.to_nat n.
Proof. unfold py_range. rewrite length_map, length_seq. reflexivity. Qed.


(** ** The worker pool *)

(** C3.  One reconcile step only appends to the pool: every existing entry
    stays where it is with its liveness unchanged (nothing is terminated or
    signalled), the pool never shrinks, a scale-down only emits the
    [ScalingDown] log record, and afterwards the live count is at most the
    pool size and equals [previous_alive + max(0, target - previous_alive)]. *)
Theorem reconcile_append_only (target : Z) (pool : list worker) :
  let '(pool', logs) := reconcile target pool in
  (exists added, pool' = pool ++ added /\ Forall (fun w => alive w = true) added) /\
  (length pool <= length pool')%nat /\
  count_alive pool' <= Z.of_nat (length pool') /\
  count_alive pool' = count_alive pool + Z.max 0 (target - count_alive pool) /\
  (target < count_alive pool ->
     pool' = pool /\
     logs = [ScalingDown (count_alive pool - target) (count_alive pool) target]).
Proof.
  unfold reconcile.
  destruct (Z.ltb_spec (count_alive pool) target) as [Hup|Hnup].
  - destruct (spawn_loop_app (py_range (target - count_alive pool)) pool)
      as (added & Heq & Hlen & Hall).
    rewrite Heq. repeat split.
    + exists added. auto.
    + rewrite length_app. lia.
    + apply count_alive_le_length.
    + rewrite count_alive_app, (count_alive_all_alive added Hall).
      rewrite Hlen, py_range_length. lia.
    + lia.
    + lia.
  - destruct (Z.ltb_spec target (count_alive pool)) as [Hdown|Hndown];
      (split; [exists []; rewrite app_nil_r; auto|]);
      (split; [lia|]); (split; [apply count_alive_le_length|]);
      split; intros; try split; auto; lia.
Qed.

(** C4.  The identifiers [reconcile] hands out are not distinct across
    ticks.  [args=(len(workers) + i,)] is evaluated after the earlier
    appends of the same loop, so one call numbers its workers
    [L, L+2, L+4, ...]; the next call starts again at the new length.
    From an empty pool, a tick with target 4 followed by a tick with
    target 5 yields the ids [0; 2; 4; 6; 4]. *)
Theorem reconcile_ids_collide :
  let pool1 := fst (reconcile 4 []) in
  let pool2 := fst (reconcile 5 pool1) in
  map wid pool1 = [0; 2; 4; 6] /\ map wid pool2 = [0; 2; 4; 6; 4].
Proof. vm_compute. split; reflexivity. Qed.

(** The same collision through the controller loop: manual mode with
    [manual_workers = 4], a [POST /config] with [{"workers": 5}], then
    another tick. *)
Lemma manual_run_ids_collide :
  let cfg0 := mk_config (JStr "manual") 10 50 120 4 in
  let st0 := mk_state cfg0 [] 0 0 0 0 0 in
  let st1 := fst (tick true st0 0 0 1000 0) in
  let cfg1 := fst (update_config (JObj [("workers", JInt 5)]) (st_cfg st1)) in
  let st1' := mk_state cfg1 (st_workers st1) (st_load_level st1) (g_active_workers st1)
                       (g_load_level st1) (g_memory_usage_bytes st1) (g_cpu_usage_estimate st1) in
  let st2 := fst (tick true st1' 5 0 1000 0) in
  map wid (st_workers st2) = [0; 2; 4; 6; 4].
Proof. vm_compute. reflexivity. Qed.

(** ** The pattern function: manual and fallback branches *)

(** C5.  Under [manual] the target is the stored [manual_workers] for every
    configuration and elapsed time, and [current_load_level] is left as it
    was; after [POST /config] with [{"workers": 7}] under [manual] (the
    request succeeds and keeps the pattern), the next call returns 7. *)
Theorem manual_pattern_target (cfg : config) (b m c w : Z) (rnd : R) (t lvl : Z) :
  calculate_target_workers cfg rnd (JStr "manual") t lvl = Some (manual_workers cfg, lvl) /\
  let '(cfg', r) := update_config (JObj [("workers", JInt 7)]) (mk_config (JStr "manual") b m c w) in
  r <> None /\ PATTERN_MODE cfg' = JStr "manual" /\
  calculate_target_workers cfg' rnd (PATTERN_MODE cfg') t lvl = Some (7, lvl).
Proof.
  split; [reflexivity|].
  cbn. repeat split; [discriminate].
Qed.

(** C9.  For a pattern outside [{manual, wave, spike, random}] the target is
    [BASE_LOAD] and [current_load_level] is unchanged, provided
    [CYCLE_DURATION <> 0]: the shared position computation runs first. *)
Theorem other_pattern_base_load (cfg : config) (rnd : R) (mode : json) (t lvl : Z)
    (Hmode : forall s, In s ["manual"; "wave"; "spike"; "random"]%string -> mode_is mode s = false)
    (Hcycle : CYCLE_DURATION cfg <> 0) :
  calculate_target_workers cfg rnd mode t lvl = Some (BASE_LOAD cfg, lvl).
Proof.
  unfold calculate_target_workers, position.
  rewrite (Hmode "manual"%string), (Hmode "wave"%string), (Hmode "spike"%string),
    (Hmode "random"%string) by (simpl; tauto).
  destruct (Z.eqb_spec (CYCLE_DURATION cfg) 0); [contradiction|reflexivity].
Qed.

Lemma other_pattern_base_load_witness :
  let cfg := mk_config (JStr "steady") 10 50 120 10 in
  (forall s, In s ["manual"; "wave"; "spike"; "random"]%string -> mode_is (JStr "steady") s = false) /\
  CYCLE_DURATION cfg <> 0 /\
  calculate_target_workers cfg 0%R (JStr "steady") 37 42 = Some (10, 42).
Proof.
  intros cfg.
  assert (H : forall s, In s ["manual"; "wave"; "spike"; "random"]%string ->
                        mode_is (JStr "steady") s = false)
    by (simpl; intros s [<-|[<-|[<-|[<-|[]]]]]; reflexivity).
  split; [exact H|]. split; [discriminate|].
  apply (other_pattern_base_load cfg 0%R (JStr "steady") 37 42 H). discriminate.
Defined.

(** C9, counterexample.  With [CYCLE_DURATION = 0] (accepted by
    [POST /config]) an unknown pattern does not fall back to [BASE_LOAD]:
    [cycle_time % CYCLE_DURATION] raises [ZeroDivisionError]. *)
Lemma other_pattern_zero_cycle_raises :
  calculate_target_workers (mk_config (JStr "steady") 10 50 0 10) 0%R (JStr "steady") 30 0 = None.
Proof. reflexivity. Qed.

(** ** The pattern endpoint *)

(** C7.  An unknown name gets a 400 whose body lists the four valid
    patterns and leaves the configuration (so [PATTERN_MODE]) unchanged; a
    valid name becomes [PATTERN_MODE] and the answer is a success. *)
Theorem set_pattern_spec (cfg : config) (name : string) :
  invalid_pattern_message =
    "Invalid pattern. Must be one of: ['wave', 'spike', 'random', 'manual']"%string /\
  (~ In name valid_patterns ->
     set_pattern name cfg =
       (cfg, Some (mk_response 400 (JObj [("error"%string, JStr invalid_pattern_message)])))) /\
  (In name valid_patterns ->
     set_pattern name cfg =
       (set_PATTERN_MODE (JStr name) cfg,
        Some (mk_response 200 (JObj [("status"%string, JStr "success");
                                     ("pattern"%string, JStr name)])))).
Proof.
  split; [reflexivity|]. unfold set_pattern.
  split; intros H.
  - destruct (existsb (String.eqb name) valid_patterns) eqn:E; [|reflexivity].
    apply existsb_exists in E as (x & Hx & Heq).
    apply String.eqb_eq in Heq. subst. contradiction.
  - replace (existsb (String.eqb name) valid_patterns) with true; [reflexivity|].
    symmetry. apply existsb_exists. exists name. split; [exact H|apply String.eqb_refl].
Qed.

(** ** The controller loop with [ENABLED] false *)

(** C10.  With [ENABLED] false a tick leaves the pool, [current_load_level]
    and the [active_workers] and [load_level] gauges as they were and only
    refreshes the memory and CPU gauges from the samples; over any run of
    ticks no worker is ever spawned. *)
Theorem disabled_tick_frame (st : state) (elapsed : Z) (rnd : R) (rss : Z) (cpu : Q)
    (samples : list (Z * R * Z * Q)) :
  let st' := fst (tick false st elapsed rnd rss cpu) in
  st_workers st' = st_workers st /\ st_load_level st' = st_load_level st /\
  g_active_workers st' = g_active_workers st /\ g_load_level st' = g_load_level st /\
  g_memory_usage_bytes st' = rss /\ g_cpu_usage_estimate st' = (cpu / 100)%Q /\
  st_cfg st' = st_cfg st /\
  let st'' := run false st samples in
  st_workers st'' = st_workers st /\ st_load_level st'' = st_load_level st /\
  g_active_workers st'' = g_active_workers st /\ g_load_level st'' = g_load_level st.
Proof.
  cbn. do 7 (split; [reflexivity|]).
  revert st. induction samples as [|[[[e r] m] c] rest IH]; intros st; [auto|].
  cbn. destruct (IH (mk_state (st_cfg st) (st_workers st) (st_load_level st)
                              (g_active_workers st) (g_load_level st) m (c / 100)%Q))
    as (H1 & H2 & H3 & H4).
  auto.
Qed.

(** ** The configuration endpoint *)

Lemma py_contains_obj (kv : list (string * json)) (k : string) :
  py_contains (JObj kv) k =
  Some (match py_getitem (JObj kv) k with Some _ => true | None => false end).
Proof.
  unfold py_contains, py_getitem. induction kv as [|[k' v] kv IH]; [reflexivity|].
  cbn. destruct (String.eqb k' k); [reflexivity|exact IH].
Qed.

(** C8, counterexample.  A present field with a valid value is not always
    applied: with [{"base_load": "abc", "max_load": 30}] the [int("abc")]
    raises before [max_load] is reached, so [MAX_LOAD] stays 50. *)
Lemma update_config_not_all_present_applied :
  ~ (forall f v v',
       py_getitem (JObj [("base_load", JStr "abc"); ("max_load", JInt 30)]) (field_key f) = Some v ->
       coerce f v = Some v' ->
       field_value f (fst (update_config (JObj [("base_load", JStr "abc"); ("max_load", JInt 30)])
                                         default_config)) = v').
Proof.
  intros H. specialize (H FMaxLoad (JInt 30) (JInt 30) eq_refl eq_refl).
  vm_compute in H. discriminate H.
Qed.

(** Assignments made before the failing coercion stay: [PATTERN_MODE]
    becomes ["spike"] although the request fails. *)
Lemma update_config_partial_on_failure :
  update_config (JObj [("pattern_mode", JStr "spike"); ("base_load", JStr "abc")]) default_config
  = (mk_config (JStr "spike") 10 50 120 10, None).
Proof. reflexivity. Qed.

Ltac case_lookup :=
  repeat (cbv beta iota zeta delta -[py_getitem py_int];
          match goal with
          | |- context [py_getitem (JObj ?kv) ?k] => destruct (py_getitem (JObj kv) k)
          | |- context [py_int ?v] => destruct (py_int v)
          end).

(** C8, amended.  For a JSON-object body the handler walks [pattern_mode],
    [base_load], [max_load], [cycle_duration], [workers] in this order.  The
    request fails exactly when some present numeric field is rejected by
    [int()]; every field up to the first such one is set from the body when
    present ([pattern_mode] stored as is, the others coerced by [int()]);
    every absent field, the failing field and every field after it keep
    their previous value. *)
Theorem update_config_fields (cfg : config) (kv : list (string * json)) :
  (snd (update_config (JObj kv) cfg) = None <-> first_failure kv <> None) /\
  forall f,
    field_value f (fst (update_config (JObj kv) cfg)) =
    match py_getitem (JObj kv) (field_key f) with
    | Some v => if reached kv f
                then match coerce f v with Some v' => v' | None => field_value f cfg end
                else field_value f cfg
    | None => field_value f cfg
    end.
Proof.
  destruct kv as [|p kv'].
  - split; [split; [discriminate|intros H; exfalso; apply H; reflexivity]|].
    intros []; reflexivity.
  - unfold update_config.
    change (py_truthy (JObj (p :: kv'))) with true. cbv iota beta zeta.
    generalize (p :: kv') as kv. intros kv.
    rewrite !py_contains_obj.
    unfold reached, first_failure.
    split; [|intros []]; case_lookup; try reflexivity;
      split; intros; congruence.
Qed.

(** ** The spike pattern *)




(** [int((MAX_LOAD - BASE_LOAD) * 0.2)] is [(MAX_LOAD - BASE_LOAD) / 5]
    truncated toward zero. *)
Lemma py_int_fifth (k : Z) : py_int_Q (inject_Z k * (2 # 10))%Q = Z.quot k 5.
Proof.
  unfold py_int_Q. simpl.
  replace 10 with (5 * 2) by reflexivity.
  apply Z.quot_mul_cancel_r; lia.
Qed.




(** ** Truncation and the wave pattern *)

Local Open Scope R_scope.

Lemma Int_part_between (x : R) (n : Z) : IZR n <= x < IZR n + 1 -> Int_part x = n.
Proof. intros [H1 H2]. symmetry. apply Int_part_spec. lra. Qed.

Lemma Int_part_mono (x y : R) : x <= y -> (Int_part x <= Int_part y)%Z.
Proof.
  intros Hxy.
  destruct (base_Int_part x) as [Hx1 Hx2]. destruct (base_Int_part y) as [Hy1 Hy2].
  assert (Hlt : IZR (Int_part x) < IZR (Int_part y) + 1) by lra.
  rewrite <- plus_IZR in Hlt. apply lt_IZR in Hlt. lia.
Qed.

Lemma Int_part_nonneg (x : R) : 0 <= x -> (0 <= Int_part x)%Z.
Proof.
  intros Hx. destruct (base_Int_part x) as [_ H2].
  assert (H : -1 < IZR (Int_part x)) by lra.
  apply lt_IZR in H. lia.
Qed.


Lemma Rtrunc_IZR (n : Z) : Rtrunc (IZR n) = n.
Proof.
  unfold Rtrunc. destruct (Rle_dec 0 (IZR n)).
  - apply Int_part_between. lra.
  - rewrite <- opp_IZR, (Int_part_between (IZR (- n)) (- n)); [lia|lra].
Qed.

Lemma Rtrunc_mono (x y : R) : x <= y -> (Rtrunc x <= Rtrunc y)%Z.
Proof.
  intros Hxy. unfold Rtrunc.
  destruct (Rle_dec 0 x) as [Hx|Hx]; destruct (Rle_dec 0 y) as [Hy|Hy].
  - apply Int_part_mono. exact Hxy.
  - exfalso. apply Hy. lra.
  - assert (Hnx : 0 <= - x) by (apply Rnot_le_lt in Hx; lra).
    pose proof (Int_part_nonneg (- x) Hnx). pose proof (Int_part_nonneg y Hy). lia.
  - assert (Hyx : - y <= - x) by lra.
    pose proof (Int_part_mono (- y) (- x) Hyx). lia.
Qed.

Lemma wave_factor_bounds (p : R) : 0 <= wave_factor p <= 1.
Proof. unfold wave_factor. pose proof (SIN_bound (p * 2 * PI)). lra. Qed.


Lemma scale_target_bounds (base max : Z) (f : R) :
  (base <= max)%Z -> 0 <= f <= 1 ->
  (base <= scale_target base max f <= max)%Z.
Proof.
  intros Hbm Hf.
  assert (Hd : 0 <= IZR (max - base)) by (apply IZR_le; lia).
  assert (Hv : IZR base <= IZR base + IZR (max - base) * f <= IZR max).
  { pose proof (Rmult_le_pos _ _ Hd (proj1 Hf)).
    rewrite minus_IZR in *. split; nra. }
  unfold scale_target. destruct Hv as [Hlo Hhi].
  apply Rtrunc_mono in Hlo. apply Rtrunc_mono in Hhi.
  rewrite Rtrunc_IZR in Hlo, Hhi. lia.
Qed.














Local Close Scope R_scope.

(** * Further properties of the controller and the handlers *)

(** ** The pattern function *)

(** When [calculate_target_workers] raises: exactly when the mode is not
    [manual] and [CYCLE_DURATION = 0]. *)
Theorem calculate_raises_iff (cfg : config) (rnd : R) (mode : json) (t lvl : Z) :
  calculate_target_workers cfg rnd mode t lvl = None <->
  mode_is mode "manual" = false /\ CYCLE_DURATION cfg = 0.
Proof.
  unfold calculate_target_workers, position.
  destruct (mode_is mode "manual"); [split; [discriminate|intros [H _]; discriminate]|].
  destruct (Z.eqb_spec (CYCLE_DURATION cfg) 0) as [H0|H0].
  - split; auto.
  - split; [|intros [_ H]; contradiction].
    destruct (mode_is mode "wave"); [discriminate|].
    destruct (mode_is mode "spike"); [destruct (spike_high _); discriminate|].
    destruct (mode_is mode "random"); discriminate.
Qed.

Lemma random_call (cfg : config) (rnd : R) (t lvl : Z) :
  CYCLE_DURATION cfg <> 0 ->
  calculate_target_workers cfg rnd (JStr "random") t lvl
  = Some (scale_target (BASE_LOAD cfg) (MAX_LOAD cfg) rnd, Rtrunc (rnd * 100)%R).
Proof.
  intros Hc. unfold calculate_target_workers, position.
  replace (Z.eqb (CYCLE_DURATION cfg) 0) with false by (symmetry; apply Z.eqb_neq; lia).
  reflexivity.
Qed.

Lemma Rtrunc_percent_bounds (f : R) : (0 <= f <= 1)%R -> 0 <= Rtrunc (f * 100) <= 100.
Proof.
  intros Hf.
  assert (H0 : (IZR 0 <= f * 100 <= IZR 100)%R) by lra.
  destruct H0 as [Hlo Hhi].
  apply Rtrunc_mono in Hlo. apply Rtrunc_mono in Hhi.
  rewrite Rtrunc_IZR in Hlo, Hhi. lia.
Qed.

(** The level a successful call leaves is the one it found (manual and
    unknown modes) or a percentage in [[0,100]]. *)
Lemma calculate_level (cfg : config) (rnd : R) (mode : json) (t lvl target lvl' : Z) :
  (0 <= rnd < 1)%R ->
  calculate_target_workers cfg rnd mode t lvl = Some (target, lvl') ->
  lvl' = lvl \/ 0 <= lvl' <= 100.
Proof.
  intros Hr. unfold calculate_target_workers.
  destruct (mode_is mode "manual"); [intros H; injection H; auto|].
  destruct (position t (CYCLE_DURATION cfg)) as [pos|]; [|discriminate].
  destruct (mode_is mode "wave").
  { intros H; injection H as _ <-. right. apply Rtrunc_percent_bounds, wave_factor_bounds. }
  destruct (mode_is mode "spike").
  { destruct (spike_high pos); intros H; injection H as _ <-; right; lia. }
  destruct (mode_is mode "random").
  { intros H; injection H as _ <-. right. apply Rtrunc_percent_bounds. lra. }
  intros H; injection H; auto.
Qed.

(** With [BASE_LOAD <= MAX_LOAD] and a draw in [[0,1)], every target the
    [wave], [spike] and [random] branches compute lies in
    [[BASE_LOAD, MAX_LOAD]]. *)
Theorem computed_target_bounds (cfg : config) (rnd : R) (mode : json) (t lvl target lvl' : Z)
    (Hbm : BASE_LOAD cfg <= MAX_LOAD cfg) (Hr : (0 <= rnd < 1)%R)
    (Hmode : mode_is mode "wave" = true \/ mode_is mode "spike" = true \/
             mode_is mode "random" = true)
    (Hcall : calculate_target_workers cfg rnd mode t lvl = Some (target, lvl')) :
  BASE_LOAD cfg <= target <= MAX_LOAD cfg.
Proof.
  unfold calculate_target_workers in Hcall.
  assert (Hnm : mode_is mode "manual" = false).
  { destruct mode as [| | | |m| |]; try (destruct Hmode as [H|[H|H]]; discriminate).
    destruct Hmode as [H|[H|H]]; apply String.eqb_eq in H; subst; reflexivity. }
  rewrite Hnm in Hcall.
  destruct (position t (CYCLE_DURATION cfg)) as [pos|]; [|discriminate].
  destruct (mode_is mode "wave").
  { injection Hcall as <- _. apply scale_target_bounds; [exact Hbm|apply wave_factor_bounds]. }
  destruct (mode_is mode "spike").
  { destruct (spike_high pos); injection Hcall as <- _; [lia|].
    rewrite py_int_fifth.
    pose proof (Z.quot_pos (MAX_LOAD cfg - BASE_LOAD cfg) 5).
    pose proof (Z.quot_le_upper_bound (MAX_LOAD cfg - BASE_LOAD cfg) 5
                  (MAX_LOAD cfg - BASE_LOAD cfg)).
    lia. }
  destruct (mode_is mode "random").
  { injection Hcall as <- _. apply scale_target_bounds; [exact Hbm|lra]. }
  destruct Hmode as [H|[H|H]]; discriminate.
Qed.

Lemma computed_target_bounds_witness :
  BASE_LOAD default_config <= MAX_LOAD default_config /\ (0 <= 0 < 1)%R /\
  (mode_is (JStr "spike") "wave" = true \/ mode_is (JStr "spike") "spike" = true \/
   mode_is (JStr "spike") "random" = true) /\
  calculate_target_workers default_config 0%R (JStr "spike") 30 0 = Some (18, 20) /\
  BASE_LOAD default_config <= 18 <= MAX_LOAD default_config.
Proof.
  assert (H1 : BASE_LOAD default_config <= MAX_LOAD default_config) by (simpl; lia).
  assert (H2 : (0 <= 0 < 1)%R) by lra.
  assert (H3 : mode_is (JStr "spike") "wave" = true \/ mode_is (JStr "spike") "spike" = true \/
               mode_is (JStr "spike") "random" = true) by (right; left; reflexivity).
  assert (H4 : calculate_target_workers default_config 0%R (JStr "spike") 30 0 = Some (18, 20))
    by reflexivity.
  split; [exact H1|]. split; [exact H2|]. split; [exact H3|]. split; [exact H4|].
  exact (computed_target_bounds default_config 0%R (JStr "spike") 30 0 18 20 H1 H2 H3 H4).
Defined.

(** Under [random] with [0 <= BASE_LOAD < MAX_LOAD] the target never
    reaches [MAX_LOAD] and the load level never reaches 100, since
    [random.random()] is below 1. *)
Theorem random_never_max (cfg : config) (rnd : R) (t lvl : Z)
    (Hb : 0 <= BASE_LOAD cfg) (Hbm : BASE_LOAD cfg < MAX_LOAD cfg)
    (Hc : CYCLE_DURATION cfg <> 0) (Hr : (0 <= rnd < 1)%R) :
  exists target lvl',
    calculate_target_workers cfg rnd (JStr "random") t lvl = Some (target, lvl') /\
    BASE_LOAD cfg <= target < MAX_LOAD cfg /\ 0 <= lvl' <= 99.
Proof.
  rewrite random_call by exact Hc.
  eexists; eexists; split; [reflexivity|].
  assert (Hd : (0 < IZR (MAX_LOAD cfg - BASE_LOAD cfg))%R) by (apply IZR_lt; lia).
  assert (Hb' : (0 <= IZR (BASE_LOAD cfg))%R) by (apply IZR_le; exact Hb).
  assert (Hv : (IZR (BASE_LOAD cfg) <= IZR (BASE_LOAD cfg) + IZR (MAX_LOAD cfg - BASE_LOAD cfg) * rnd
                < IZR (MAX_LOAD cfg))%R).
  { rewrite minus_IZR in *. split; nra. }
  split.
  - unfold scale_target, Rtrunc.
    destruct (Rle_dec 0 _) as [H0|H0]; [|exfalso; apply H0; lra].
    destruct (base_Int_part (IZR (BASE_LOAD cfg) + IZR (MAX_LOAD cfg - BASE_LOAD cfg) * rnd))
      as [Hi1 Hi2].
    split.
    + pose proof (Int_part_mono _ _ (proj1 Hv)) as Hm.
      rewrite (Int_part_between (IZR (BASE_LOAD cfg)) (BASE_LOAD cfg)) in Hm by lra.
      exact Hm.
    + apply lt_IZR. lra.
  - unfold Rtrunc. destruct (Rle_dec 0 (rnd * 100)) as [H0|H0]; [|exfalso; apply H0; lra].
    destruct (base_Int_part (rnd * 100)) as [Hi1 Hi2].
    split; [apply Int_part_nonneg; exact H0|].
    assert (IZR (Int_part (rnd * 100)) < IZR 100)%R by lra.
    apply lt_IZR in H. lia.
Qed.

Lemma random_never_max_witness :
  0 <= BASE_LOAD default_config /\ BASE_LOAD default_config < MAX_LOAD default_config /\
  CYCLE_DURATION default_config <> 0 /\ (0 <= / 2 < 1)%R /\
  exists target lvl',
    calculate_target_workers default_config (/ 2) (JStr "random") 7 0 = Some (target, lvl') /\
    BASE_LOAD default_config <= target < MAX_LOAD default_config /\ 0 <= lvl' <= 99.
Proof.
  assert (H1 : 0 <= BASE_LOAD default_config) by (simpl; lia).
  assert (H2 : BASE_LOAD default_config < MAX_LOAD default_config) by (simpl; lia).
  assert (H3 : CYCLE_DURATION default_config <> 0) by discriminate.
  assert (H4 : (0 <= / 2 < 1)%R) by lra.
  split; [exact H1|]. split; [exact H2|]. split; [exact H3|]. split; [exact H4|].
  exact (random_never_max default_config (/ 2) 7 0 H1 H2 H3 H4).
Defined.

(** ** The worker pool across ticks *)

Lemma spawn_loop_ids (k s : nat) (pool : list worker) :
  spawn_loop (map Z.of_nat (seq s k)) pool =
  pool ++ map (fun j => mk_worker (Z.of_nat (length pool) + Z.of_nat s + 2 * Z.of_nat j) true)
              (seq 0 k).
Proof.
  revert s pool. induction k as [|k IH]; intros s pool; cbn [seq map spawn_loop].
  - rewrite app_nil_r. reflexivity.
  - rewrite IH, <- app_assoc, length_app. cbn [length app].
    rewrite <- seq_shift, map_map. f_equal. f_equal.
    + f_equal. lia.
    + apply map_ext. intros j. f_equal. lia.
Qed.

Lemma reconcile_count (target : Z) (pool : list worker) :
  count_alive (fst (reconcile target pool)) = Z.max target (count_alive pool).
Proof.
  unfold reconcile.
  destruct (Z.ltb_spec (count_alive pool) target) as [Hup|Hnup].
  - destruct (spawn_loop_app (py_range (target - count_alive pool)) pool)
      as (added & Heq & Hlen & Hall).
    simpl. rewrite Heq, count_alive_app, (count_alive_all_alive added Hall), Hlen,
      py_range_length. lia.
  - destruct (Z.ltb_spec target (count_alive pool)); simpl; lia.
Qed.

Lemma reconcile_prefix (target : Z) (pool : list worker) :
  exists added, fst (reconcile target pool) = pool ++ added.
Proof.
  unfold reconcile.
  destruct (Z.ltb_spec (count_alive pool) target).
  - destruct (spawn_loop_app (py_range (target - count_alive pool)) pool)
      as (added & Heq & _ & _).
    exists added. exact Heq.
  - exists []. rewrite app_nil_r. destruct (Z.ltb_spec target (count_alive pool)); reflexivity.
Qed.

(** The workers one scale-up starts are numbered [L, L+2, L+4, ...] from
    the pool length [L]: [len(workers) + i] is read after each append. *)
Theorem reconcile_spawned_ids (target : Z) (pool : list worker)
    (Hup : count_alive pool < target) :
  fst (reconcile target pool) =
  pool ++ map (fun j => mk_worker (Z.of_nat (length pool) + 2 * Z.of_nat j) true)
              (seq 0 (Z.to_nat (target - count_alive pool))).
Proof.
  unfold reconcile. apply Z.ltb_lt in Hup. rewrite Hup. cbn [fst].
  unfold py_range. rewrite spawn_loop_ids.
  f_equal. apply map_ext. intros j. f_equal. lia.
Qed.

Lemma reconcile_spawned_ids_witness :
  count_alive [mk_worker 0 true; mk_worker 1 false] < 4 /\
  fst (reconcile 4 [mk_worker 0 true; mk_worker 1 false]) =
  [mk_worker 0 true; mk_worker 1 false] ++
  map (fun j => mk_worker (2 + 2 * Z.of_nat j) true) (seq 0 3).
Proof.
  assert (H : count_alive [mk_worker 0 true; mk_worker 1 false] < 4) by reflexivity.
  split; [exact H|].
  exact (reconcile_spawned_ids 4 [mk_worker 0 true; mk_worker 1 false] H).
Defined.

(** Reconciling twice toward the same target does no more than once: the
    first call leaves at least [target] live workers, so the second neither
    spawns nor removes anything. *)
Theorem reconcile_idempotent (target : Z) (pool : list worker) :
  fst (reconcile target (fst (reconcile target pool))) = fst (reconcile target pool).
Proof.
  pose proof (reconcile_count target pool) as Hc.
  set (p1 := fst (reconcile target pool)) in *.
  unfold reconcile at 1.
  destruct (Z.ltb_spec (count_alive p1) target); [lia|].
  destruct (Z.ltb_spec target (count_alive p1)); reflexivity.
Qed.

Lemma tick_enabled_some (st : state) (elapsed : Z) (rnd : R) (rss : Z) (cpu : Q)
    (target lvl : Z) :
  calculate_target_workers (st_cfg st) rnd (PATTERN_MODE (st_cfg st)) elapsed (st_load_level st)
  = Some (target, lvl) ->
  fst (tick true st elapsed rnd rss cpu) =
  mk_state (st_cfg st) (fst (reconcile target (st_workers st))) lvl
           (count_alive (fst (reconcile target (st_workers st)))) lvl rss (cpu / 100)%Q.
Proof.
  intros Hcall. unfold tick. rewrite Hcall.
  destruct (reconcile target (st_workers st)). reflexivity.
Qed.

(** After an enabled tick whose target computation succeeds, the
    [active_workers] gauge is [max(target, previous live count)], the
    [load_level] gauge and [current_load_level] hold the new level, and the
    memory and CPU gauges hold the samples. *)
Theorem enabled_tick_gauges (st : state) (elapsed : Z) (rnd : R) (rss : Z) (cpu : Q)
    (target lvl : Z)
    (Hcall : calculate_target_workers (st_cfg st) rnd (PATTERN_MODE (st_cfg st)) elapsed
               (st_load_level st) = Some (target, lvl)) :
  let st' := fst (tick true st elapsed rnd rss cpu) in
  g_active_workers st' = Z.max target (count_alive (st_workers st)) /\
  g_active_workers st' = count_alive (st_workers st') /\
  st_load_level st' = lvl /\ g_load_level st' = lvl /\
  g_memory_usage_bytes st' = rss /\ g_cpu_usage_estimate st' = (cpu / 100)%Q /\
  st_cfg st' = st_cfg st.
Proof.
  intros st'. unfold st'. rewrite (tick_enabled_some st elapsed rnd rss cpu target lvl Hcall).
  cbn [g_active_workers st_workers st_load_level g_load_level g_memory_usage_bytes
       g_cpu_usage_estimate st_cfg].
  rewrite reconcile_count. repeat split; reflexivity.
Qed.

Lemma enabled_tick_gauges_witness :
  let st := mk_state (mk_config (JStr "manual") 10 50 120 3) [mk_worker 0 true] 0 1 0 0 0 in
  calculate_target_workers (st_cfg st) 0%R (PATTERN_MODE (st_cfg st)) 5 (st_load_level st)
  = Some (3, 0) /\
  let st' := fst (tick true st 5 0%R 4096 (25 # 1)) in
  g_active_workers st' = Z.max 3 (count_alive (st_workers st)) /\
  g_active_workers st' = count_alive (st_workers st') /\
  st_load_level st' = 0 /\ g_load_level st' = 0 /\
  g_memory_usage_bytes st' = 4096 /\ g_cpu_usage_estimate st' = ((25 # 1) / 100)%Q /\
  st_cfg st' = st_cfg st.
Proof.
  intros st.
  assert (H : calculate_target_workers (st_cfg st) 0%R (PATTERN_MODE (st_cfg st)) 5
                (st_load_level st) = Some (3, 0)) by reflexivity.
  split; [exact H|].
  exact (enabled_tick_gauges st 5 0%R 4096 (25 # 1) 3 0 H).
Defined.

(** An enabled tick whose target computation raises (a pattern other than
    [manual] with [CYCLE_DURATION = 0]) changes nothing at all: not the pool,
    not the level, and not even the memory and CPU gauges, whose sampling
    the exception skips. *)
Theorem enabled_tick_raises_keeps_state (st : state) (elapsed : Z) (rnd : R) (rss : Z)
    (cpu : Q)
    (Hmode : mode_is (PATTERN_MODE (st_cfg st)) "manual" = false)
    (Hcycle : CYCLE_DURATION (st_cfg st) = 0) :
  tick true st elapsed rnd rss cpu = (st, [ManagerError]).
Proof.
  unfold tick, calculate_target_workers, position.
  rewrite Hmode, Hcycle. reflexivity.
Qed.

Lemma enabled_tick_raises_keeps_state_witness :
  let st := mk_state (mk_config (JStr "wave") 10 50 0 10) [] 0 0 0 7 0 in
  mode_is (PATTERN_MODE (st_cfg st)) "manual" = false /\ CYCLE_DURATION (st_cfg st) = 0 /\
  tick true st 30 0%R 4096 (50 # 1) = (st, [ManagerError]).
Proof.
  intros st.
  assert (H1 : mode_is (PATTERN_MODE (st_cfg st)) "manual" = false) by reflexivity.
  assert (H2 : CYCLE_DURATION (st_cfg st) = 0) by reflexivity.
  split; [exact H1|]. split; [exact H2|].
  exact (enabled_tick_raises_keeps_state st 30 0%R 4096 (50 # 1) H1 H2).
Defined.

Lemma tick_pool_prefix (enabled : bool) (st : state) (elapsed : Z) (rnd : R) (rss : Z) (cpu : Q) :
  exists added, st_workers (fst (tick enabled st elapsed rnd rss cpu)) = st_workers st ++ added.
Proof.
  unfold tick. destruct enabled.
  - destruct (calculate_target_workers _ _ _ _ _) as [[target lvl]|] eqn:Hcall.
    + destruct (reconcile_prefix target (st_workers st)) as (added & Hadd).
      destruct (reconcile target (st_workers st)) as [pool logs] eqn:Hr.
      exists added. exact Hadd.
    + exists []. rewrite app_nil_r. reflexivity.
  - exists []. rewrite app_nil_r. reflexivity.
Qed.

(** Over any run of the controller loop the pool only grows: the workers
    present at the start stay, in order, at the front of the list, so
    [total_workers_created] never decreases. *)
Theorem run_pool_grows (enabled : bool) (st : state) (samples : list (Z * R * Z * Q)) :
  exists added, st_workers (run enabled st samples) = st_workers st ++ added.
Proof.
  revert st. induction samples as [|[[[e r] m] c] rest IH]; intros st; simpl.
  - exists []. rewrite app_nil_r. reflexivity.
  - destruct (tick_pool_prefix enabled st e r m c) as (a1 & H1).
    destruct (IH (fst (tick enabled st e r m c))) as (a2 & H2).
    exists (a1 ++ a2). rewrite H2, H1, app_assoc. reflexivity.
Qed.

Lemma tick_level_ok (enabled : bool) (st : state) (elapsed : Z) (rnd : R) (rss : Z) (cpu : Q) :
  (0 <= rnd < 1)%R -> level_ok st -> level_ok (fst (tick enabled st elapsed rnd rss cpu)).
Proof.
  intros Hr [H1 H2]. unfold tick. destruct enabled; [|split; assumption].
  destruct (calculate_target_workers _ _ _ _ _) as [[target lvl]|] eqn:Hcall;
    [|split; assumption].
  destruct (calculate_level _ _ _ _ _ _ _ Hr Hcall) as [->|Hl];
    destruct (reconcile target (st_workers st)); split; simpl; lia.
Qed.

(** Starting from levels in [[0,100]] (the module starts at 0), and with
    every [random.random()] draw in [[0,1)], [current_load_level] and the
    [load_level] gauge stay in [[0,100]] over any run of the loop. *)
Theorem run_level_bounded (enabled : bool) (st : state) (samples : list (Z * R * Z * Q))
    (Hdraws : Forall (fun s => (0 <= snd (fst (fst s)) < 1)%R) samples)
    (Hst : level_ok st) :
  level_ok (run enabled st samples).
Proof.
  revert st Hst. induction Hdraws as [|[[[e r] m] c] rest Hr _ IH]; intros st Hst; simpl.
  - exact Hst.
  - apply IH. apply tick_level_ok; [exact Hr|exact Hst].
Qed.

Lemma run_level_bounded_witness :
  let st := mk_state default_config [] 0 0 0 0 0 in
  let samples := [(0%Z, (/ 2)%R, 4096%Z, 10 # 1); (5%Z, 0%R, 4096%Z, 12 # 1)] in
  Forall (fun s => (0 <= snd (fst (fst s)) < 1)%R) samples /\ level_ok st /\
  level_ok (run true st samples).
Proof.
  intros st samples.
  assert (H1 : Forall (fun s => (0 <= snd (fst (fst s)) < 1)%R) samples).
  { repeat constructor; simpl; lra. }
  assert (H2 : level_ok st) by (split; simpl; lia).
  split; [exact H1|]. split; [exact H2|].
  exact (run_level_bounded true st samples H1 H2).
Defined.

(** ** The status endpoint *)

(** [/status] reports [active_workers] as the live count of the pool and
    [total_workers_created] as its length, so [0 <= active <= total]. *)
Theorem status_worker_counts (enabled : bool) (st : state) (rss : Z) (cpu : Q)
    (completed : Z) (timestamp : string) :
  let r := status_endpoint enabled st rss cpu completed timestamp in
  metric r "active_workers" = Some (count_alive (st_workers st)) /\
  metric r "total_workers_created" = Some (Z.of_nat (length (st_workers st))) /\
  0 <= count_alive (st_workers st) <= Z.of_nat (length (st_workers st)).
Proof.
  split; [reflexivity|]. split; [reflexivity|].
  pose proof (count_alive_le_length (st_workers st)). unfold count_alive in *. lia.
Qed.

(** Read right after an enabled tick whose target computation succeeded,
    [/status] agrees with the gauges that tick set: [active_workers] is the
    [app_active_workers] gauge and [load_level_percent] the [app_load_level]
    gauge. *)
Theorem status_matches_gauges (st : state) (elapsed : Z) (rnd : R) (rss : Z) (cpu : Q)
    (target lvl : Z) (enabled : bool) (rss' : Z) (cpu' : Q) (completed : Z) (ts : string)
    (Hcall : calculate_target_workers (st_cfg st) rnd (PATTERN_MODE (st_cfg st)) elapsed
               (st_load_level st) = Some (target, lvl)) :
  let st' := fst (tick true st elapsed rnd rss cpu) in
  let r := status_endpoint enabled st' rss' cpu' completed ts in
  metric r "active_workers" = Some (g_active_workers st') /\
  metric r "load_level_percent" = Some (g_load_level st').
Proof.
  intros st' r. unfold r, st'.
  rewrite (tick_enabled_some st elapsed rnd rss cpu target lvl Hcall).
  split; reflexivity.
Qed.

Lemma status_matches_gauges_witness :
  let st := mk_state (mk_config (JStr "manual") 10 50 120 2) [] 0 0 0 0 0 in
  calculate_target_workers (st_cfg st) 0%R (PATTERN_MODE (st_cfg st)) 0 (st_load_level st)
  = Some (2, 0) /\
  let st' := fst (tick true st 0 0%R 4096 (10 # 1)) in
  let r := status_endpoint true st' 8192 (20 # 1) 3 "2026-10-16T00:00:00" in
  metric r "active_workers" = Some (g_active_workers st') /\
  metric r "load_level_percent" = Some (g_load_level st').
Proof.
  intros st.
  assert (H : calculate_target_workers (st_cfg st) 0%R (PATTERN_MODE (st_cfg st)) 0
                (st_load_level st) = Some (2, 0)) by reflexivity.
  split; [exact H|].
  exact (status_matches_gauges st 0 0%R 4096 (10 # 1) 2 0 true 8192 (20 # 1) 3
           "2026-10-16T00:00:00" H).
Defined.

(** ** The configuration endpoint *)

(** Sending the same JSON-object body to [/config] a second time changes
    nothing more: the configuration after two identical requests is the one
    after the first, whether it succeeded or failed partway. *)
Theorem update_config_reapply (cfg : config) (kv : list (string * json)) :
  fst (update_config (JObj kv) (fst (update_config (JObj kv) cfg))) =
  fst (update_config (JObj kv) cfg).
Proof.
  destruct kv as [|p kv']; [reflexivity|].
  unfold update_config.
  change (py_truthy (JObj (p :: kv'))) with true. cbv iota beta zeta.
  generalize (p :: kv') as kv. intros kv.
  rewrite !py_contains_obj.
  case_lookup; reflexivity.
Qed.

(** A successful [/config] answers 200 with the configuration as stored
    after the update. *)
Theorem update_config_success_reports (cfg : config) (kv : list (string * json)) (r : response)
    (Hok : snd (update_config (JObj kv) cfg) = Some r) :
  r = mk_response 200 (JObj [("status", JStr "success");
                             ("config", config_json (fst (update_config (JObj kv) cfg)))]).
Proof.
  revert Hok.
  destruct kv as [|p kv']; [intros H; injection H as <-; reflexivity|].
  unfold update_config.
  change (py_truthy (JObj (p :: kv'))) with true. cbv iota beta zeta.
  generalize (p :: kv') as kv. intros kv.
  rewrite !py_contains_obj.
  case_lookup; intros H; try discriminate H; injection H as <-; reflexivity.
Qed.

Lemma update_config_success_reports_witness :
  snd (update_config (JObj [("max_load", JStr "60")]) default_config) =
  Some (mk_response 200 (JObj [("status", JStr "success");
                               ("config", config_json (mk_config (JStr "wave") 10 60 120 10))])) /\
  mk_response 200 (JObj [("status", JStr "success");
                         ("config", config_json (mk_config (JStr "wave") 10 60 120 10))]) =
  mk_response 200 (JObj [("status", JStr "success");
                         ("config", config_json (fst (update_config (JObj [("max_load", JStr "60")])
                                                                    default_config)))]).
Proof.
  assert (H : snd (update_config (JObj [("max_load", JStr "60")]) default_config) =
              Some (mk_response 200 (JObj [("status", JStr "success");
                      ("config", config_json (mk_config (JStr "wave") 10 60 120 10))])))
    by reflexivity.
  split; [exact H|].
  exact (update_config_success_reports default_config [("max_load", JStr "60")] _ H).
Defined.

(** A body that is not a JSON object never changes the configuration: a
    falsy one ([null], [false], [0], [""], [[]]) is replaced by [{}] and the
    request succeeds; any other either names no field or raises
    ([TypeError]) at the first field it seems to contain, before any
    assignment; a non-zero number or [true] always raises. *)
Theorem update_config_non_object (cfg : config) (req : json)
    (Hobj : forall kv, req <> JObj kv) :
  fst (update_config req cfg) = cfg /\
  (py_truthy req = false -> snd (update_config req cfg) <> None) /\
  (match req with JInt _ | JFloat _ | JBool _ => py_truthy req = true | _ => False end ->
   snd (update_config req cfg) = None).
Proof.
  destruct req as [|b|z|q|s|l|kv]; [| | | | | |exfalso; exact (Hobj kv eq_refl)].
  - repeat split; [discriminate|intros []].
  - destruct b; repeat split; try discriminate; intros _; reflexivity.
  - unfold update_config, py_truthy.
    destruct (Z.eqb z 0); repeat split; try discriminate; intros _; reflexivity.
  - unfold update_config, py_truthy.
    destruct (Qeq_bool q 0); repeat split; try discriminate; intros _; reflexivity.
  - unfold update_config, py_truthy.
    destruct (String.eqb s EmptyString) eqn:E; cbn [negb].
    + repeat split; [discriminate|intros []].
    + cbv beta iota zeta delta -[py_contains].
      repeat match goal with
             | |- context [py_contains ?d ?k] => destruct (py_contains d k) as [[|]|]
             end;
        repeat split; try discriminate; intros [].
  - unfold update_config, py_truthy.
    destruct l as [|v l]; cbn [negb].
    + repeat split; [discriminate|intros []].
    + cbv beta iota zeta delta -[py_contains].
      repeat match goal with
             | |- context [py_contains ?d ?k] => destruct (py_contains d k) as [[|]|]
             end;
        repeat split; try discriminate; intros [].
Qed.

Lemma update_config_non_object_witness :
  (forall kv, JInt 3 <> JObj kv) /\
  fst (update_config (JInt 3) default_config) = default_config /\
  (py_truthy (JInt 3) = false -> snd (update_config (JInt 3) default_config) <> None) /\
  (py_truthy (JInt 3) = true -> snd (update_config (JInt 3) default_config) = None).
Proof.
  assert (H : forall kv, JInt 3 <> JObj kv) by discriminate.
  split; [exact H|].
  exact (update_config_non_object default_config (JInt 3) H).
Defined.
